(** * Karigaar: the conversational video editor's session controller

    A shallow embedding of [frontend/src/pages/VideoEditor.jsx]
    (component [MobileVideoEditor]) together with the part of
    [components/SongsSheet.jsx] that calls into it, followed by the
    properties of the session state machine, the version history and the
    prompt ledger.

    Modelling conventions.
    - The component's [useState] cells are the fields of one record,
      [World], which also carries the pieces of the browser the handlers
      talk to: the object-URL registry, the console, the speech requests
      posted to [/api/tts] and the edit/mix requests awaiting a response.
    - A handler is a function [World -> World].  State setters are applied
      in the order the handler calls them; a functional updater
      ([setHistory(prev => ...)]) sees the effect of the setters before it.
      Handlers run against the state of the latest render, and the
      updater that [addAIMessage] passes to [setMessages] has run by the
      time its [shouldAdd] flag is read.
    - An [async] handler is cut at its [await fetch(...)]: the part before
      it yields the request together with what the continuation captured
      ([submitEdit], [addSongToCurrentVideo]); the part after it is a
      second function taking the response ([submitEdit_resume],
      [addSongToCurrentVideo_resume]).
    - After a handler, the effect on [conversationState] runs if the
      phase changed ([step]).  Responses may arrive in any order and at any
      time relative to user actions ([run]); [perform] is the special case
      in which a request is answered before the next action.
    - A JavaScript string is the [string] of its UTF-8 bytes. *)

From Stdlib Require Import String Ascii List Bool Arith Lia ZArith DecimalString.
Import ListNotations.
Open Scope string_scope.

(** ** JavaScript string primitives used by the component *)

Module Js.

Local Open Scope nat_scope.

(** [!s] is true exactly for the empty string. *)
Definition truthy (s : string) : bool :=
  match s with
  | EmptyString => false
  | String _ _ => true
  end.

(** [a || b] where [a] is a possibly missing string property. *)
Definition or_else (a : option string) (b : string) : string :=
  match a with
  | Some s => if truthy s then s else b
  | None => b
  end.

(** A possibly missing property interpolated in a template literal. *)
Definition interpolate (a : option string) : string :=
  match a with
  | Some s => s
  | None => "undefined"
  end.

(** [String.prototype.toLowerCase], on the bytes of the string.  Bytes
    of multi-byte characters are left alone: no such character lowers to
    a sequence containing one of the ASCII keywords tested below. *)
Definition lower_ascii (c : ascii) : ascii :=
  let n := nat_of_ascii c in
  if (65 <=? n) && (n <=? 90) then ascii_of_nat (n + 32) else c.

Fixpoint toLowerCase (s : string) : string :=
  match s with
  | EmptyString => EmptyString
  | String c r => String (lower_ascii c) (toLowerCase r)
  end.

(** [s.includes(sub)] *)
Fixpoint includes (s sub : string) : bool :=
  prefix sub s ||
  match s with
  | EmptyString => false
  | String _ r => includes r sub
  end.

(** [String.prototype.trim]: white space and line terminators of
    ECMAScript, in their UTF-8 encodings. *)
Definition ws1 (c : ascii) : bool :=
  let n := nat_of_ascii c in
  ((9 <=? n) && (n <=? 13)) || (n =? 32).

(* U+00A0 *)
Definition ws2 (a b : ascii) : bool :=
  (nat_of_ascii a =? 194) && (nat_of_ascii b =? 160).

(* U+1680, U+2000..U+200A, U+2028, U+2029, U+202F, U+205F, U+3000, U+FEFF *)
Definition ws3 (a b c : ascii) : bool :=
  let x := nat_of_ascii a in
  let y := nat_of_ascii b in
  let z := nat_of_ascii c in
  ((x =? 225) && (y =? 154) && (z =? 128)) ||
  ((x =? 226) && (y =? 128) &&
     (((128 <=? z) && (z <=? 138)) || (z =? 168) || (z =? 169) || (z =? 175))) ||
  ((x =? 226) && (y =? 129) && (z =? 159)) ||
  ((x =? 227) && (y =? 128) && (z =? 128)) ||
  ((x =? 239) && (y =? 187) && (z =? 191)).

Fixpoint trimStart (s : string) : string :=
  match s with
  | EmptyString => s
  | String a r =>
      if ws1 a then trimStart r
      else
        match r with
        | EmptyString => s
        | String b r2 =>
            if ws2 a b then trimStart r2
            else
              match r2 with
              | EmptyString => s
              | String c r3 => if ws3 a b c then trimStart r3 else s
              end
        end
  end.

Definition blank (s : string) : bool := negb (truthy (trimStart s)).

Fixpoint trimEnd (s : string) : string :=
  match s with
  | EmptyString => EmptyString
  | String a r => if blank s then EmptyString else String a (trimEnd r)
  end.

Definition trim (s : string) : string := trimEnd (trimStart s).

(** [xs.join(sep)] on an array of strings. *)
Definition join (sep : string) (xs : list string) : string :=
  String.concat sep xs.

(** A number interpolated in a template literal (HTTP status). *)
Definition show_nat (n : nat) : string :=
  NilZero.string_of_uint (Nat.to_uint n).

(** [xs[xs.length - 1]]: [None] stands for [undefined]. *)
Fixpoint last_of {A : Type} (xs : list A) : option A :=
  match xs with
  | [] => None
  | [x] => Some x
  | _ :: r => last_of r
  end.

(** [xs.slice(0, -1)] *)
Definition drop_last {A : Type} (xs : list A) : list A := removelast xs.

End Js.

(** ** Data model *)

(** [{ role, content }] entries of the transcript ([messages]). *)
Inductive Role : Type := user | ai.

Record Message : Type := { role : Role; content : string }.

(** The three values [conversationState] takes. *)
Inductive ConversationState : Type := upload_video | get_prompt | review.

(** A [Blob]; a [File] picked by the user also has a [name]. *)
Record Blob : Type := { name : option string; bytes : string }.

(** Object URLs are drawn from a counter: each [URL.createObjectURL]
    returns one that was never handed out before. *)
Definition ObjectUrl : Type := nat.

(** [{ blob, url }] entries of [history]. *)
Record HistoryEntry : Type := { blob : Blob; url : ObjectUrl }.

(** Entries of the song catalogue.  [title] and [artist] may be missing on
    entries loaded from the server. *)
Record Song : Type :=
  { id : string; title : option string; artist : option string;
    public_url : string }.

(** The multipart bodies posted to [/api/edit] and [/api/add_music]. *)
Inductive Request : Type :=
  | edit_request (video : Blob) (filename : string) (user_prompt : string)
  | add_music_request (video : Blob) (filename : string) (song_url : string).

(** What the suspended handler still holds when the response arrives. *)
Inductive Continuation : Type :=
  | resume_edit (prompt : string)
  | resume_add_song (song : Song).

Record InFlight : Type := { request : Request; continuation : Continuation }.

(** What [await fetch(...)] and the reads of the response can produce. *)
Inductive ErrorBody : Type :=
  | json_object (error_field : option string)
      (* parsed; the value of its [error] property, if it has one *)
  | json_null (message : string)
      (* parsed to [null]: reading [.error] throws *)
  | json_rejects (message : string).
      (* [response.json()] rejects: the body is not JSON *)

Inductive Response : Type :=
  | fetch_rejects (message : string)          (* network failure *)
  | not_ok (status : nat) (body : ErrorBody)  (* [!response.ok] *)
  | ok_blob (b : Blob)                        (* [response.blob()] resolves *)
  | ok_unreadable (message : string).         (* [response.blob()] rejects *)

(** What the speech request and the playback can produce. *)
Record Playback : Type :=
  { decodes : bool;        (* [atob] accepts the payload *)
    has_element : bool;    (* [audioRef.current] is set *)
    plays : bool }.        (* [audio.play()] resolves *)

Inductive TtsOutcome : Type :=
  | tts_rejects (server_error : option string) (message : string)
  | tts_data (audio_base64 : option string) (p : Playback).

Inductive LogLine : Type :=
  | console_error (label : string)
  | console_warn (label : string).

(** The component's state cells, the [addingId] cell of [SongsSheet], and
    the browser-side state the handlers act on. *)
Record World : Type :=
  { messages : list Message;
    conversationState : ConversationState;
    history : list HistoryEntry;
    promptHistory : list string;
    uploading : bool;
    addingSong : bool;
    addingSongTitle : option string;
    error : option string;
    inputText : string;
    sheetOpen : bool;
    trendingOpen : bool;
    addingId : option string;
    objectUrls : list ObjectUrl;     (* URLs created and not yet revoked *)
    nextUrl : ObjectUrl;
    console : list LogLine;
    ttsPosts : list string;          (* texts posted to /api/tts *)
    inflight : list InFlight }.      (* edit/mix requests awaiting a response *)

(** The [useState] defaults, in a browser that handed out no URL yet. *)
Definition initial : World :=
  {| messages := []; conversationState := upload_video; history := [];
     promptHistory := []; uploading := false; addingSong := false;
     addingSongTitle := None; error := None; inputText := EmptyString;
     sheetOpen := false; trendingOpen := false; addingId := None;
     objectUrls := []; nextUrl := 0; console := []; ttsPosts := [];
     inflight := [] |}.

(** *** State setters *)

Definition setMessages (v : list Message) (w : World) : World :=
  {| messages := v; conversationState := conversationState w;
     history := history w; promptHistory := promptHistory w;
     uploading := uploading w; addingSong := addingSong w;
     addingSongTitle := addingSongTitle w; error := error w;
     inputText := inputText w; sheetOpen := sheetOpen w;
     trendingOpen := trendingOpen w; addingId := addingId w;
     objectUrls := objectUrls w; nextUrl := nextUrl w; console := console w;
     ttsPosts := ttsPosts w; inflight := inflight w |}.

Definition setConversationState (v : ConversationState) (w : World) : World :=
  {| messages := messages w; conversationState := v; history := history w;
     promptHistory := promptHistory w; uploading := uploading w;
     addingSong := addingSong w; addingSongTitle := addingSongTitle w;
     error := error w; inputText := inputText w; sheetOpen := sheetOpen w;
     trendingOpen := trendingOpen w; addingId := addingId w;
     objectUrls := objectUrls w; nextUrl := nextUrl w; console := console w;
     ttsPosts := ttsPosts w; inflight := inflight w |}.

Definition setHistory (v : list HistoryEntry) (w : World) : World :=
  {| messages := messages w; conversationState := conversationState w;
     history := v; promptHistory := promptHistory w;
     uploading := uploading w; addingSong := addingSong w;
     addingSongTitle := addingSongTitle w; error := error w;
     inputText := inputText w; sheetOpen := sheetOpen w;
     trendingOpen := trendingOpen w; addingId := addingId w;
     objectUrls := objectUrls w; nextUrl := nextUrl w; console := console w;
     ttsPosts := ttsPosts w; inflight := inflight w |}.

Definition setPromptHistory (v : list string) (w : World) : World :=
  {| messages := messages w; conversationState := conversationState w;
     history := history w; promptHistory := v; uploading := uploading w;
     addingSong := addingSong w; addingSongTitle := addingSongTitle w;
     error := error w; inputText := inputText w; sheetOpen := sheetOpen w;
     trendingOpen := trendingOpen w; addingId := addingId w;
     objectUrls := objectUrls w; nextUrl := nextUrl w; console := console w;
     ttsPosts := ttsPosts w; inflight := inflight w |}.

Definition setUploading (v : bool) (w : World) : World :=
  {| messages := messages w; conversationState := conversationState w;
     history := history w; promptHistory := promptHistory w; uploading := v;
     addingSong := addingSong w; addingSongTitle := addingSongTitle w;
     error := error w; inputText := inputText w; sheetOpen := sheetOpen w;
     trendingOpen := trendingOpen w; addingId := addingId w;
     objectUrls := objectUrls w; nextUrl := nextUrl w; console := console w;
     ttsPosts := ttsPosts w; inflight := inflight w |}.

Definition setAddingSong (v : bool) (w : World) : World :=
  {| messages := messages w; conversationState := conversationState w;
     history := history w; promptHistory := promptHistory w;
     uploading := uploading w; addingSong := v;
     addingSongTitle := addingSongTitle w; error := error w;
     inputText := inputText w; sheetOpen := sheetOpen w;
     trendingOpen := trendingOpen w; addingId := addingId w;
     objectUrls := objectUrls w; nextUrl := nextUrl w; console := console w;
     ttsPosts := ttsPosts w; inflight := inflight w |}.

Definition setAddingSongTitle (v : option string) (w : World) : World :=
  {| messages := messages w; conversationState := conversationState w;
     history := history w; promptHistory := promptHistory w;
     uploading := uploading w; addingSong := addingSong w;
     addingSongTitle := v; error := error w; inputText := inputText w;
     sheetOpen := sheetOpen w; trendingOpen := trendingOpen w;
     addingId := addingId w; objectUrls := objectUrls w;
     nextUrl := nextUrl w; console := console w; ttsPosts := ttsPosts w;
     inflight := inflight w |}.

Definition setError (v : option string) (w : World) : World :=
  {| messages := messages w; conversationState := conversationState w;
     history := history w; promptHistory := promptHistory w;
     uploading := uploading w; addingSong := addingSong w;
     addingSongTitle := addingSongTitle w; error := v;
     inputText := inputText w; sheetOpen := sheetOpen w;
     trendingOpen := trendingOpen w; addingId := addingId w;
     objectUrls := objectUrls w; nextUrl := nextUrl w; console := console w;
     ttsPosts := ttsPosts w; inflight := inflight w |}.

Definition setInputText (v : string) (w : World) : World :=
  {| messages := messages w; conversationState := conversationState w;
     history := history w; promptHistory := promptHistory w;
     uploading := uploading w; addingSong := addingSong w;
     addingSongTitle := addingSongTitle w; error := error w; inputText := v;
     sheetOpen := sheetOpen w; trendingOpen := trendingOpen w;
     addingId := addingId w; objectUrls := objectUrls w;
     nextUrl := nextUrl w; console := console w; ttsPosts := ttsPosts w;
     inflight := inflight w |}.

Definition setSheetOpen (v : bool) (w : World) : World :=
  {| messages := messages w; conversationState := conversationState w;
     history := history w; promptHistory := promptHistory w;
     uploading := uploading w; addingSong := addingSong w;
     addingSongTitle := addingSongTitle w; error := error w;
     inputText := inputText w; sheetOpen := v;
     trendingOpen := trendingOpen w; addingId := addingId w;
     objectUrls := objectUrls w; nextUrl := nextUrl w; console := console w;
     ttsPosts := ttsPosts w; inflight := inflight w |}.

Definition setTrendingOpen (v : bool) (w : World) : World :=
  {| messages := messages w; conversationState := conversationState w;
     history := history w; promptHistory := promptHistory w;
     uploading := uploading w; addingSong := addingSong w;
     addingSongTitle := addingSongTitle w; error := error w;
     inputText := inputText w; sheetOpen := sheetOpen w; trendingOpen := v;
     addingId := addingId w; objectUrls := objectUrls w;
     nextUrl := nextUrl w; console := console w; ttsPosts := ttsPosts w;
     inflight := inflight w |}.

Definition setAddingId (v : option string) (w : World) : World :=
  {| messages := messages w; conversationState := conversationState w;
     history := history w; promptHistory := promptHistory w;
     uploading := uploading w; addingSong := addingSong w;
     addingSongTitle := addingSongTitle w; error := error w;
     inputText := inputText w; sheetOpen := sheetOpen w;
     trendingOpen := trendingOpen w; addingId := v;
     objectUrls := objectUrls w; nextUrl := nextUrl w; console := console w;
     ttsPosts := ttsPosts w; inflight := inflight w |}.

Definition with_objectUrls (v : list ObjectUrl) (w : World) : World :=
  {| messages := messages w; conversationState := conversationState w;
     history := history w; promptHistory := promptHistory w;
     uploading := uploading w; addingSong := addingSong w;
     addingSongTitle := addingSongTitle w; error := error w;
     inputText := inputText w; sheetOpen := sheetOpen w;
     trendingOpen := trendingOpen w; addingId := addingId w; objectUrls := v;
     nextUrl := nextUrl w; console := console w; ttsPosts := ttsPosts w;
     inflight := inflight w |}.

Definition with_nextUrl (v : ObjectUrl) (w : World) : World :=
  {| messages := messages w; conversationState := conversationState w;
     history := history w; promptHistory := promptHistory w;
     uploading := uploading w; addingSong := addingSong w;
     addingSongTitle := addingSongTitle w; error := error w;
     inputText := inputText w; sheetOpen := sheetOpen w;
     trendingOpen := trendingOpen w; addingId := addingId w;
     objectUrls := objectUrls w; nextUrl := v; console := console w;
     ttsPosts := ttsPosts w; inflight := inflight w |}.

Definition with_console (v : list LogLine) (w : World) : World :=
  {| messages := messages w; conversationState := conversationState w;
     history := history w; promptHistory := promptHistory w;
     uploading := uploading w; addingSong := addingSong w;
     addingSongTitle := addingSongTitle w; error := error w;
     inputText := inputText w; sheetOpen := sheetOpen w;
     trendingOpen := trendingOpen w; addingId := addingId w;
     objectUrls := objectUrls w; nextUrl := nextUrl w; console := v;
     ttsPosts := ttsPosts w; inflight := inflight w |}.

Definition with_ttsPosts (v : list string) (w : World) : World :=
  {| messages := messages w; conversationState := conversationState w;
     history := history w; promptHistory := promptHistory w;
     uploading := uploading w; addingSong := addingSong w;
     addingSongTitle := addingSongTitle w; error := error w;
     inputText := inputText w; sheetOpen := sheetOpen w;
     trendingOpen := trendingOpen w; addingId := addingId w;
     objectUrls := objectUrls w; nextUrl := nextUrl w; console := console w;
     ttsPosts := v; inflight := inflight w |}.

Definition with_inflight (v : list InFlight) (w : World) : World :=
  {| messages := messages w; conversationState := conversationState w;
     history := history w; promptHistory := promptHistory w;
     uploading := uploading w; addingSong := addingSong w;
     addingSongTitle := addingSongTitle w; error := error w;
     inputText := inputText w; sheetOpen := sheetOpen w;
     trendingOpen := trendingOpen w; addingId := addingId w;
     objectUrls := objectUrls w; nextUrl := nextUrl w; console := console w;
     ttsPosts := ttsPosts w; inflight := v |}.

Notation "w |> f" := (f w) (at level 45, left associativity, only parsing).

(** Functional updaters: [setHistory(prev => f(prev))] and the like. *)
Definition setMessagesWith (f : list Message -> list Message) (w : World) : World :=
  setMessages (f (messages w)) w.

Definition setHistoryWith (f : list HistoryEntry -> list HistoryEntry) (w : World) : World :=
  setHistory (f (history w)) w.

Definition setPromptHistoryWith (f : list string -> list string) (w : World) : World :=
  setPromptHistory (f (promptHistory w)) w.

(** ** Browser services *)

Definition createObjectURL (w : World) : ObjectUrl * World :=
  let u := nextUrl w in
  (u, w |> with_objectUrls (u :: objectUrls w) |> with_nextUrl (S u)).

Definition revokeObjectURL (u : ObjectUrl) (w : World) : World :=
  w |> with_objectUrls (remove Nat.eq_dec u (objectUrls w)).

Definition log (l : LogLine) (w : World) : World :=
  w |> with_console (console w ++ [l])%list.

Definition of_bytes (codes : list nat) : string :=
  string_of_list_ascii (map ascii_of_nat codes).

Definition dquote : string := of_bytes [34].

(** ** Speech output: [addAIMessage], [requestServerTTS], [playBase64Audio] *)

(** The test made inside the [setMessages] updater of [addAIMessage]:
    [last && last.role === "ai" && last.content.trim() === text.trim()]. *)
Definition repeats_last_ai (text : string) (prev : list Message) : bool :=
  match Js.last_of prev with
  | Some last =>
      match role last with
      | ai => String.eqb (Js.trim (content last)) (Js.trim text)
      | user => false
      end
  | None => false
  end.

(** [requestServerTTS], up to its [await]: the post to [/api/tts]. *)
Definition requestServerTTS (text : string) (w : World) : World :=
  w |> with_ttsPosts (ttsPosts w ++ [text]).

(** [addAIMessage], up to its [await]: the transcript entry, suppressed
    when it repeats the last one ([shouldAdd]), and the speech request. *)
Definition addAIMessage (text : string) (w : World) : World :=
  if Js.truthy text then
    if repeats_last_ai text (messages w) then w
    else
      w |> setMessagesWith (fun prev => (prev ++ [{| role := ai; content := text |}])%list)
        |> requestServerTTS text
  else w.

Definition playBase64Audio (base64 : string) (p : Playback) (w : World) : World :=
  if Js.truthy base64 then
    if decodes p then
      let (_, w1) := createObjectURL w in
      if has_element p then
        if plays p then w1
        else w1 |> log (console_warn "Playback blocked or failed:")
      else w1
    else
      (* [atob] throws; caught by the [try] of [addAIMessage] *)
      w |> log (console_error "addAIMessage: TTS/playback failed")
  else w.

(** [addAIMessage] from its [await requestServerTTS(text)] on, the [catch]
    of [requestServerTTS] included. *)
Definition addAIMessage_resume (o : TtsOutcome) (w : World) : World :=
  match o with
  | tts_rejects server_error message =>
      w |> log (console_error "TTS request failed")
        |> setError (Some ("TTS request failed: " ++ Js.or_else server_error message))
  | tts_data (Some audio) p =>
      if Js.truthy audio then playBase64Audio audio p w else w
  | tts_data None _ => w
  end.

Definition addUserMessage (text : string) (w : World) : World :=
  if Js.truthy text then
    w |> setMessagesWith (fun prev => (prev ++ [{| role := user; content := text |}])%list)
  else w.

(** ** File upload *)

Definition handleFileChange (file : option Blob) (w : World) : World :=
  match file with
  | Some f =>
      let (u, w1) := createObjectURL w in
      w1 |> setHistory [{| blob := f; url := u |}]
         |> setPromptHistory []
         |> addUserMessage "Video uploaded"
         |> addAIMessage "Describe the edits you would like to make"
         |> setConversationState get_prompt
  | None => w
  end.

(** ** Edit requests *)

(** A handler suspended at [await fetch(...)], or finished ([None]). *)
Definition Suspended : Type := (World * option InFlight)%type.

(** An [async] call that is not awaited by its caller. *)
Definition launch (s : Suspended) : World :=
  match snd s with
  | Some f => fst s |> with_inflight (inflight (fst s) ++ [f])
  | None => fst s
  end.

Definition upload_name (b : Blob) : string := Js.or_else (name b) "video.mp4".

Definition submitEdit (prompt : string) (w : World) : Suspended :=
  match Js.last_of (history w) with
  | None => (w, None)
  | Some current =>
      let fullPrompt :=
        if (0 <? length (promptHistory w))%nat then
          "Previous edits: " ++ Js.join ". " (promptHistory w)
            ++ ". Additional edit: " ++ prompt
        else prompt in
      (w |> setUploading true |> setError None,
       Some {| request := edit_request (blob current) (upload_name (blob current)) fullPrompt;
               continuation := resume_edit prompt |})
  end.

(** The value reaching [response.blob()]'s consumer, or the [message] of
    the error reaching [catch], in [submitEdit]. *)
Definition edit_reads (r : Response) : Blob + string :=
  match r with
  | fetch_rejects m => inr m
  | not_ok _ (json_object e) => inr (Js.or_else e "Processing failed")
  | not_ok _ (json_null m) => inr m
  | not_ok _ (json_rejects m) => inr m
  | ok_blob b => inl b
  | ok_unreadable m => inr m
  end.

Definition submitEdit_resume (prompt : string) (r : Response) (w : World) : World :=
  (match edit_reads r with
   | inl b =>
       let (u, w1) := createObjectURL w in
       w1 |> setHistoryWith (fun prev => (prev ++ [{| blob := b; url := u |}])%list)
          |> setPromptHistoryWith (fun prev => (prev ++ [prompt])%list)
          |> addAIMessage "Edit complete. Continue editing, restore previous version, or finish?"
          |> setConversationState review
          |> setSheetOpen false
   | inr message =>
       w |> log (console_error message) |> setError (Some message)
   end)
  |> setUploading false.

(** ** Restore *)

Definition restorePrevious (w : World) : World :=
  if (1 <? length (history w))%nat then
    w |> (fun w0 =>
            match Js.last_of (history w0) with
            | Some removed => revokeObjectURL (url removed) w0
            | None => w0
            end)
      |> setHistoryWith Js.drop_last
      |> setPromptHistoryWith Js.drop_last
      |> addAIMessage "Previous version restored. What would you like to edit next?"
      |> setConversationState get_prompt
  else w.

(** ** User input *)

Definition handleUserInput (transcript : string) (w : World) : World :=
  let w1 := addUserMessage transcript w in
  match conversationState w with
  | get_prompt => launch (submitEdit transcript w1)
  | review =>
      let lower := Js.toLowerCase transcript in
      if Js.includes lower "restore" then restorePrevious w1
      else if Js.includes lower "edit" || Js.includes lower "change"
              || Js.includes lower "more" || Js.includes lower "yes" then
        w1 |> addAIMessage "What additional edits would you like?"
           |> setConversationState get_prompt
      else if Js.includes lower "done" || Js.includes lower "no" then
        w1 |> addAIMessage "Session complete. Upload a new video to continue."
           |> setConversationState upload_video
           |> setHistory []
           |> setPromptHistory []
           |> setMessages []
      else
        w1 |> addAIMessage "Please specify: more edits, restore previous version, or done?"
  | upload_video => w1
  end.

Definition handleTextSubmit (w : World) : World :=
  if Js.truthy (Js.trim (inputText w)) then
    w |> handleUserInput (Js.trim (inputText w)) |> setInputText EmptyString
  else w.

(** ** Adding a song *)

(** The separator of the ledger entry, as it stands in the source file:
    the characters U+00E2, U+20AC, U+201D. *)
Definition song_separator : string := of_bytes [195; 162; 226; 130; 172; 226; 128; 157].

(** U+2014 EM DASH. *)
Definition em_dash : string := of_bytes [226; 128; 148].

Definition song_ledger_entry (song : Song) : string :=
  "Added song: " ++ Js.interpolate (title song) ++ " " ++ song_separator ++ " "
    ++ Js.interpolate (artist song).

(** [song?.title || null] *)
Definition title_or_null (song : Song) : option string :=
  match title song with
  | Some t => if Js.truthy t then Some t else None
  | None => None
  end.

Definition addSongToCurrentVideo (song : Song) (w : World) : Suspended :=
  match Js.last_of (history w) with
  | None => (w |> setError (Some "No video loaded"), None)
  | Some current =>
      (w |> setAddingSong true
         |> setAddingSongTitle (title_or_null song)
         |> setUploading true
         |> setError None,
       Some {| request := add_music_request (blob current) (upload_name (blob current))
                            (public_url song);
               continuation := resume_add_song song |})
  end.

Definition add_music_failed (status : nat) : string :=
  "Add music failed (" ++ Js.show_nat status ++ ")".

Definition add_song_reads (r : Response) : Blob + string :=
  match r with
  | fetch_rejects m => inr m
  | not_ok status (json_object e) => inr (Js.or_else e (add_music_failed status))
  | not_ok _ (json_null m) => inr m
  | not_ok status (json_rejects _) => inr (add_music_failed status)
  | ok_blob b => inl b
  | ok_unreadable m => inr m
  end.

Definition addSongToCurrentVideo_resume (song : Song) (r : Response) (w : World) : World :=
  (match add_song_reads r with
   | inl outBlob =>
       let (u, w1) := createObjectURL w in
       w1 |> setHistoryWith (fun prev => (prev ++ [{| blob := outBlob; url := u |}])%list)
          |> setPromptHistoryWith (fun prev => (prev ++ [song_ledger_entry song])%list)
          |> addAIMessage ("Added " ++ dquote ++ Js.interpolate (title song) ++ dquote
                             ++ " to the video. Continue editing or finish.")
          |> setTrendingOpen false
          |> setConversationState review
   | inr message =>
       w |> log (console_error "addSongToCurrentVideo:") |> setError (Some message)
   end)
  |> setAddingSong false
  |> setAddingSongTitle None
  |> setUploading false.

(** [handleAddClick] of [SongsSheet]; its button is disabled while
    [addingId] is set. *)
Definition handleAddClick (song : Song) (w : World) : World :=
  match addingId w with
  | Some _ => w
  | None =>
      match addSongToCurrentVideo song (w |> setAddingId (Some (id song))) with
      | (w1, Some f) => w1 |> with_inflight (inflight w1 ++ [f])
      | (w1, None) => w1 |> setAddingId None
      end
  end.

(** ** Events and runs *)

Definition resume (k : Continuation) (r : Response) (w : World) : World :=
  match k with
  | resume_edit prompt => w |> submitEdit_resume prompt r
  | resume_add_song song =>
      (* [addSongToCurrentVideo] resumes, then [handleAddClick]'s [finally] *)
      w |> addSongToCurrentVideo_resume song r |> setAddingId None
  end.

Inductive Event : Type :=
  | file_change (file : option Blob)
  | speech_result (transcript : string)
  | input_change (text : string)
  | text_submit
  | restore_click
  | add_click (song : Song)
  | response_arrives (i : nat) (r : Response)
  | speech_settles (o : TtsOutcome).

Definition remove_nth {A : Type} (i : nat) (xs : list A) : list A :=
  firstn i xs ++ skipn (S i) xs.

Definition handle (e : Event) (w : World) : World :=
  match e with
  | file_change file => handleFileChange file w
  | speech_result transcript => handleUserInput (Js.trim transcript) w
  | input_change text => setInputText text w
  | text_submit => handleTextSubmit w
  | restore_click => restorePrevious w
  | add_click song => handleAddClick song w
  | response_arrives i r =>
      match nth_error (inflight w) i with
      | Some f => w |> with_inflight (remove_nth i (inflight w)) |> resume (continuation f) r
      | None => w
      end
  | speech_settles o => addAIMessage_resume o w
  end.

(** The effect on [conversationState]: runs after mount and after every
    render in which the phase changed. *)
Definition phase_effect (w : World) : World :=
  match conversationState w with
  | upload_video => addAIMessage "Tap to upload a video to begin editing." w
  | _ => w
  end.

Definition phase_eqb (a b : ConversationState) : bool :=
  match a, b with
  | upload_video, upload_video | get_prompt, get_prompt | review, review => true
  | _, _ => false
  end.

Definition step (e : Event) (w : World) : World :=
  let w' := handle e w in
  if phase_eqb (conversationState w) (conversationState w') then w'
  else phase_effect w'.

Definition mounted : World := phase_effect initial.

Definition run (es : list Event) (w : World) : World :=
  fold_left (fun acc e => step e acc) es w.

(** A session in which every dispatched request is answered before the
    next user action: each action comes with the response its request, if
    it sends one, will get. *)
Definition perform (a : Event * Response) (w : World) : World :=
  let w1 := step (fst a) w in
  match inflight w1 with
  | [] => w1
  | _ :: _ => step (response_arrives 0 (snd a)) w1
  end.

Definition perform_all (acts : list (Event * Response)) (w : World) : World :=
  fold_left (fun acc a => perform a acc) acts w.

(** ** Notions used in the statements *)

(** *** Responses *)


(** *** Requests *)

(** The instruction [submitEdit] puts in the [user_prompt] field. *)
Definition fullPrompt_of (ledger : list string) (prompt : string) : string :=
  if (0 <? length ledger)%nat then
    "Previous edits: " ++ Js.join ". " ledger ++ ". Additional edit: " ++ prompt
  else prompt.

Definition edit_in_flight (current : HistoryEntry) (ledger : list string)
    (prompt : string) : InFlight :=
  {| request := edit_request (blob current) (upload_name (blob current))
                  (fullPrompt_of ledger prompt);
     continuation := resume_edit prompt |}.

Definition mix_in_flight (current : HistoryEntry) (song : Song) : InFlight :=
  {| request := add_music_request (blob current) (upload_name (blob current))
                  (public_url song);
     continuation := resume_add_song song |}.



(** The ledger entry of a song as the specification words it: title and
    artist around an em dash. *)
Definition claimed_ledger_entry (t a : string) : string :=
  "Added song: " ++ t ++ " " ++ em_dash ++ " " ++ a.

(** *** Announcements *)

(** The texts the handlers pass to [addAIMessage]. *)
Definition restore_confirmation : string :=
  "Previous version restored. What would you like to edit next?".




(** What [addAIMessage text] achieves: the transcript ends with an
    assistant entry carrying [text], which was appended and posted for
    speech unless the transcript already ended with it. *)
Definition says_last (text : string) (w : World) : Prop :=
  exists m, Js.last_of (messages w) = Some m /\ role m = ai /\
            Js.trim (content m) = Js.trim text.

Definition announced (text : string) (before after : World) : Prop :=
  says_last text after /\
  (repeats_last_ai text (messages before) = false ->
   messages after = (messages before ++ [{| role := ai; content := text |}])%list /\
   ttsPosts after = (ttsPosts before ++ [text])%list).

(** *** Input in review, as the specification words it *)




(** *** History and ledger *)

(** The invariant as the specification writes it, over the integers:
    [len(PromptLedger) == len(VersionHistory) - 1]. *)
Definition lock_step (w : World) : Prop :=
  Z.of_nat (length (promptHistory w)) = (Z.of_nat (length (history w)) - 1)%Z.

(** Both empty, or one ledger entry per version after the first. *)
Definition in_step (w : World) : Prop :=
  (length (history w) = 0 /\ length (promptHistory w) = 0) \/
  length (history w) = S (length (promptHistory w)).

(** The ledger is never more than one entry short of the history. *)
Definition ledger_covers (w : World) : Prop :=
  length (history w) <= S (length (promptHistory w)).

(** In review there is a version to go back to. *)
Definition review_has_previous (w : World) : Prop :=
  conversationState w = review -> 1 < length (history w).

Definition orderly (w : World) : Prop := in_step w /\ review_has_previous w.

(** No request is awaiting its response. *)
Definition settled (w : World) : Prop := inflight w = [].

(** ** Sample values *)

(** A picked file and two blobs coming back from the server. *)
Definition clip : Blob := {| name := Some "clip.mp4"; bytes := "original" |}.
Definition edited : Blob := {| name := None; bytes := "edited" |}.
Definition mixed : Blob := {| name := None; bytes := "mixed" |}.

(** The first entry of [HARDCODED_TRENDING]. *)
Definition sahiba : Song :=
  {| id := "s1"; title := Some "Sahiba"; artist := Some "Aditya Rikhari";
     public_url :=
       "https://drive.google.com/uc?export=download&id=1u5k0HPhka_ytUGLt6eyn3awVM3oYSS6b" |}.

Definition server_error : Response := not_ok 500 (json_object (Some "ffmpeg crashed")).

(** After the upload of [clip]. *)
Definition uploaded : World := step (file_change (Some clip)) mounted.

(** After the upload and an instruction whose request is still pending. *)
Definition editing : World := step (speech_result "trim start") uploaded.

(** After the upload and one successful edit. *)
Definition reviewing : World :=
  perform_all [(file_change (Some clip), server_error);
               (speech_result "trim start", ok_blob edited)] mounted.


(** After closing the session. *)
Definition finished : World :=
  perform (speech_result "done", server_error) reviewing.

(** A mix requested in review, "done" said while it is pending, and the
    mix then succeeding. *)
Definition overlapped : World :=
  run [add_click sahiba; speech_result "done"; response_arrives 0 (ok_blob mixed)]
    reviewing.

(** * Properties *)

Example trim_example : Js.trim (of_bytes [32; 9; 100; 111; 110; 101; 10; 32]) = "done".
Proof. reflexivity. Qed.

Example includes_example :
  Js.includes (Js.toLowerCase "Please RESTORE that") "restore" = true.
Proof. reflexivity. Qed.

(** ** What the message helpers leave alone *)

Ltac unfold_messages :=
  unfold addAIMessage, addUserMessage, requestServerTTS, setMessagesWith.

Ltac frame_message :=
  intros; unfold_messages;
  repeat match goal with
         | |- context [if ?b then _ else _] => destruct b
         end;
  reflexivity.

Section MessageFrame.

Variables (text : string) (w : World).

Lemma addAIMessage_conversationState :
  conversationState (addAIMessage text w) = conversationState w.
Proof. frame_message. Qed.

Lemma addAIMessage_history : history (addAIMessage text w) = history w.
Proof. frame_message. Qed.

Lemma addAIMessage_promptHistory :
  promptHistory (addAIMessage text w) = promptHistory w.
Proof. frame_message. Qed.

Lemma addAIMessage_uploading : uploading (addAIMessage text w) = uploading w.
Proof. frame_message. Qed.

Lemma addAIMessage_error : error (addAIMessage text w) = error w.
Proof. frame_message. Qed.

Lemma addAIMessage_objectUrls : objectUrls (addAIMessage text w) = objectUrls w.
Proof. frame_message. Qed.

Lemma addAIMessage_nextUrl : nextUrl (addAIMessage text w) = nextUrl w.
Proof. frame_message. Qed.

Lemma addAIMessage_inflight : inflight (addAIMessage text w) = inflight w.
Proof. frame_message. Qed.

Lemma addAIMessage_addingId : addingId (addAIMessage text w) = addingId w.
Proof. frame_message. Qed.

Lemma addAIMessage_console : console (addAIMessage text w) = console w.
Proof. frame_message. Qed.

Lemma addUserMessage_conversationState :
  conversationState (addUserMessage text w) = conversationState w.
Proof. frame_message. Qed.

Lemma addUserMessage_history : history (addUserMessage text w) = history w.
Proof. frame_message. Qed.

Lemma addUserMessage_promptHistory :
  promptHistory (addUserMessage text w) = promptHistory w.
Proof. frame_message. Qed.

Lemma addUserMessage_uploading : uploading (addUserMessage text w) = uploading w.
Proof. frame_message. Qed.

Lemma addUserMessage_error : error (addUserMessage text w) = error w.
Proof. frame_message. Qed.

Lemma addUserMessage_objectUrls : objectUrls (addUserMessage text w) = objectUrls w.
Proof. frame_message. Qed.

Lemma addUserMessage_nextUrl : nextUrl (addUserMessage text w) = nextUrl w.
Proof. frame_message. Qed.

Lemma addUserMessage_inflight : inflight (addUserMessage text w) = inflight w.
Proof. frame_message. Qed.

Lemma addUserMessage_addingId : addingId (addUserMessage text w) = addingId w.
Proof. frame_message. Qed.

Lemma addUserMessage_console : console (addUserMessage text w) = console w.
Proof. frame_message. Qed.

Lemma addUserMessage_ttsPosts : ttsPosts (addUserMessage text w) = ttsPosts w.
Proof. frame_message. Qed.

End MessageFrame.

Arguments addAIMessage : simpl never.
Arguments addUserMessage : simpl never.

Create Rewrite HintDb frame.

#[export] Hint Rewrite
  addAIMessage_conversationState addAIMessage_history addAIMessage_promptHistory
  addAIMessage_uploading addAIMessage_error addAIMessage_objectUrls
  addAIMessage_nextUrl addAIMessage_inflight addAIMessage_addingId
  addAIMessage_console
  addUserMessage_conversationState addUserMessage_history
  addUserMessage_promptHistory addUserMessage_uploading addUserMessage_error
  addUserMessage_objectUrls addUserMessage_nextUrl addUserMessage_inflight
  addUserMessage_addingId addUserMessage_console addUserMessage_ttsPosts
  : frame.

(** Push projections through setters and through the message helpers. *)
Ltac project := repeat (cbn; autorewrite with frame).

Lemma phase_effect_frame (w : World) :
  history (phase_effect w) = history w /\
  promptHistory (phase_effect w) = promptHistory w /\
  conversationState (phase_effect w) = conversationState w /\
  uploading (phase_effect w) = uploading w /\
  error (phase_effect w) = error w /\
  objectUrls (phase_effect w) = objectUrls w /\
  inflight (phase_effect w) = inflight w /\
  addingId (phase_effect w) = addingId w.
Proof.
  unfold phase_effect; destruct (conversationState w) eqn:E;
    autorewrite with frame; rewrite ?E; repeat split; reflexivity.
Qed.

(** The effect that follows a handler changes the transcript only. *)
Lemma step_frame (e : Event) (w : World) :
  history (step e w) = history (handle e w) /\
  promptHistory (step e w) = promptHistory (handle e w) /\
  conversationState (step e w) = conversationState (handle e w) /\
  uploading (step e w) = uploading (handle e w) /\
  error (step e w) = error (handle e w) /\
  objectUrls (step e w) = objectUrls (handle e w) /\
  inflight (step e w) = inflight (handle e w) /\
  addingId (step e w) = addingId (handle e w).
Proof.
  unfold step.
  destruct (phase_eqb (conversationState w) (conversationState (handle e w))).
  - repeat split; reflexivity.
  - apply phase_effect_frame.
Qed.

(** ** Responses *)



Lemma last_of_app {A : Type} (xs : list A) (x : A) :
  Js.last_of (xs ++ [x])%list = Some x.
Proof.
  induction xs as [| y ys IH]; [reflexivity |].
  cbn [app Js.last_of]. destruct (ys ++ [x])%list eqn:E; [| exact IH].
  destruct ys; discriminate.
Qed.

Lemma last_of_None {A : Type} (xs : list A) : Js.last_of xs = None -> xs = [].
Proof.
  induction xs as [| y ys IH]; [reflexivity |].
  cbn. destruct ys; [discriminate |]. intros H. apply IH in H. discriminate.
Qed.

Lemma last_of_Some {A : Type} (xs : list A) (x : A) :
  Js.last_of xs = Some x -> xs = (removelast xs ++ [x])%list.
Proof.
  induction xs as [| y ys IH]; [discriminate |].
  destruct ys as [| z zs].
  - cbn. intros H. injection H as ->. reflexivity.
  - intros H. change (Js.last_of (z :: zs) = Some x) in H. apply IH in H.
    change (removelast (y :: z :: zs)) with (y :: removelast (z :: zs)).
    cbn [app]. f_equal. exact H.
Qed.

(** ** One exchange: an action and the response to its request *)

Lemma phase_eqb_refl (a : ConversationState) : phase_eqb a a = true.
Proof. destruct a; reflexivity. Qed.

Lemma step_eq_handle (e : Event) (w : World) :
  conversationState (handle e w) = conversationState w \/
  conversationState (handle e w) <> upload_video ->
  step e w = handle e w.
Proof.
  intros H. unfold step.
  destruct (phase_eqb (conversationState w) (conversationState (handle e w))) eqn:E;
    [reflexivity |].
  destruct H as [H | H].
  - rewrite H, phase_eqb_refl in E. discriminate.
  - unfold phase_effect. destruct (conversationState (handle e w)); congruence.
Qed.

Lemma handleUserInput_get_prompt (t : string) (w : World) :
  conversationState w = get_prompt ->
  handleUserInput t w = launch (submitEdit t (addUserMessage t w)).
Proof. intros H. unfold handleUserInput. rewrite H. reflexivity. Qed.

Lemma submitEdit_current (prompt : string) (w : World) (current : HistoryEntry) :
  Js.last_of (history w) = Some current ->
  submitEdit prompt w
  = (w |> setUploading true |> setError None,
     Some (edit_in_flight current (promptHistory w) prompt)).
Proof. intros H. unfold submitEdit. rewrite H. reflexivity. Qed.




(** ** Announcements and restore *)

Lemma addAIMessage_announced (text : string) (w : World) :
  Js.truthy text = true -> announced text w (addAIMessage text w).
Proof.
  intros T. unfold announced, says_last, addAIMessage. rewrite T.
  destruct (repeats_last_ai text (messages w)) eqn:R.
  - split; [| discriminate]. unfold repeats_last_ai in R.
    destruct (Js.last_of (messages w)) as [m |]; [| discriminate].
    exists m. destruct (role m) eqn:Ro; [discriminate |].
    apply String.eqb_eq in R. auto.
  - split.
    + eexists. cbn. rewrite last_of_app. repeat split; reflexivity.
    + intros _. split; reflexivity.
Qed.



Lemma restorePrevious_some (w : World) :
  1 < length (history w) ->
  exists removed,
    Js.last_of (history w) = Some removed /\
    restorePrevious w
    = w |> revokeObjectURL (url removed)
        |> setHistoryWith Js.drop_last
        |> setPromptHistoryWith Js.drop_last
        |> addAIMessage restore_confirmation
        |> setConversationState get_prompt.
Proof.
  intros H. unfold restorePrevious.
  apply Nat.ltb_lt in H. rewrite H.
  destruct (Js.last_of (history w)) as [removed |] eqn:L.
  - exists removed. split; reflexivity.
  - apply last_of_None in L. rewrite L in H. discriminate.
Qed.

(** ** What every run preserves *)

Lemma removelast_length_pred {A : Type} (xs : list A) :
  length (removelast xs) = pred (length xs).
Proof.
  destruct xs as [| x xs] using rev_ind; [reflexivity |].
  rewrite removelast_last, length_app. cbn. lia.
Qed.

Lemma last_of_Some_length {A : Type} (xs : list A) (x : A) :
  Js.last_of xs = Some x -> 0 < length xs.
Proof. destruct xs; [discriminate | cbn; lia]. Qed.

Lemma last_of_None_length {A : Type} (xs : list A) :
  Js.last_of xs = None -> length xs = 0.
Proof. intros H. apply last_of_None in H. now subst. Qed.

(** Case analysis along the branches of the handlers. *)
Ltac unfold_handlers :=
  unfold handleFileChange, handleTextSubmit, handleUserInput, handleAddClick,
    restorePrevious, launch, submitEdit, addSongToCurrentVideo, resume,
    submitEdit_resume, addSongToCurrentVideo_resume, addAIMessage_resume,
    playBase64Audio, createObjectURL; cbv beta iota zeta.

Ltac split_handlers :=
  repeat (cbn [fst snd]; cbv beta iota zeta;
          match goal with
          | |- context [match ?x with _ => _ end] =>
              match x with
              | context [match _ with _ => _ end] => fail 1
              | _ => destruct x eqn:?
              end
          end).

Ltac lengths :=
  unfold Js.drop_last; rewrite ?removelast_length_pred, ?length_app;
  cbn [length]; try lia.

Ltac arith_facts :=
  repeat (progress (cbn in *; autorewrite with frame in * ));
  repeat match goal with
         | H : Js.last_of _ = Some _ |- _ => apply last_of_Some_length in H
         | H : Js.last_of _ = None |- _ => apply last_of_None_length in H
         | H : (_ <? _)%nat = true |- _ => apply Nat.ltb_lt in H
         | H : (_ <? _)%nat = false |- _ => apply Nat.ltb_ge in H
         end.

Ltac settle :=
  project; arith_facts; lengths;
  repeat match goal with
         | |- _ /\ _ => split
         | |- _ -> _ => intro
         end;
  repeat match goal with
         | H : ?p, R : ?p -> _ |- _ => specialize (R H)
         | R : ?a = ?a -> _ |- _ => specialize (R eq_refl)
         | H : nth_error [] ?i = Some _ |- _ => destruct i; discriminate H
         end;
  try congruence; try lia.

(** Whatever the order of actions and responses, requests overlapping or
    not, the ledger stays at most one entry short of the history. *)
Lemma handle_ledger_covers (e : Event) (w : World) :
  ledger_covers w -> ledger_covers (handle e w).
Proof.
  unfold ledger_covers. intros C.
  destruct e; cbn [handle]; unfold_handlers; split_handlers; project; lengths.
Qed.

Lemma step_ledger_covers (e : Event) (w : World) :
  ledger_covers w -> ledger_covers (step e w).
Proof.
  intros C. unfold ledger_covers.
  destruct (step_frame e w) as (H1 & H2 & _). rewrite H1, H2.
  apply handle_ledger_covers. exact C.
Qed.

Lemma run_ledger_covers (es : list Event) (w : World) :
  ledger_covers w -> ledger_covers (run es w).
Proof.
  revert w. induction es as [| e es IH]; intros w C; [exact C |].
  cbn. apply IH. apply step_ledger_covers. exact C.
Qed.

(** When each request is answered before the next action, history and
    ledger stay in step and review always has a previous version. *)
Lemma resume_orderly (k : Continuation) (r : Response) (w : World) :
  orderly w -> 0 < length (history w) ->
  orderly (resume k r w) /\ inflight (resume k r w) = inflight w.
Proof.
  unfold orderly, in_step, review_has_previous. intros [E R] N.
  destruct k; unfold_handlers; split_handlers; settle.
Qed.

Lemma handle_orderly (e : Event) (w : World) :
  settled w -> orderly w ->
  orderly (handle e w) /\
  (length (inflight (handle e w)) = 0 \/
   length (inflight (handle e w)) = 1 /\ 0 < length (history (handle e w))).
Proof.
  unfold settled, orderly, in_step, review_has_previous. intros I [E R].
  assert (I0 : length (inflight w) = 0) by now rewrite I.
  destruct e; cbn [handle]; unfold_handlers; try rewrite I; split_handlers; settle.
Qed.

Lemma orderly_ext (a b : World) :
  history a = history b -> promptHistory a = promptHistory b ->
  conversationState a = conversationState b ->
  orderly a -> orderly b.
Proof.
  unfold orderly, in_step, review_has_previous. intros -> -> ->. tauto.
Qed.

Lemma perform_orderly (a : Event * Response) (w : World) :
  settled w -> orderly w -> settled (perform a w) /\ orderly (perform a w).
Proof.
  unfold settled. intros I O. unfold perform.
  destruct (handle_orderly (fst a) w I O) as [O1 D].
  destruct (step_frame (fst a) w) as (H1 & H2 & H3 & _ & _ & _ & H7 & _).
  set (w1 := step (fst a) w) in *.
  assert (O2 : orderly w1) by (apply (orderly_ext (handle (fst a) w)); auto).
  rewrite <- H7, <- H1 in D.
  destruct (inflight w1) as [| f rest] eqn:F; [split; [exact F | exact O2] |].
  destruct D as [D | [D N]]; [discriminate |].
  destruct rest; [| discriminate]. clear D.
  destruct (step_frame (response_arrives 0 (snd a)) w1)
    as (G1 & G2 & G3 & _ & _ & _ & G7 & _).
  cbn [handle] in *. rewrite F in *. cbn [nth_error remove_nth firstn skipn app] in *.
  destruct (resume_orderly (continuation f) (snd a) (with_inflight [] w1)) as [O3 I3].
  - apply (orderly_ext w1); auto.
  - exact N.
  - split.
    + rewrite G7, I3. reflexivity.
    + eapply orderly_ext; [.. | exact O3]; auto.
Qed.

Lemma perform_all_orderly (acts : list (Event * Response)) (w : World) :
  settled w -> orderly w ->
  settled (perform_all acts w) /\ orderly (perform_all acts w).
Proof.
  revert w. induction acts as [| a acts IH]; intros w S O; [split; assumption |].
  cbn. destruct (perform_orderly a w S O) as [S1 O1]. apply IH; assumption.
Qed.

Lemma mounted_orderly : settled mounted /\ orderly mounted.
Proof.
  split; [reflexivity |]. split; [left; split; reflexivity | discriminate].
Qed.

Lemma length_zero_nil {A : Type} (xs : list A) : length xs = 0 -> xs = [].
Proof. destruct xs; [reflexivity | discriminate]. Qed.

(** With overlapping requests the two sequences can get out of step, and
    review can be entered with a single version. *)
Example overlapping_requests :
  conversationState overlapped = review /\
  length (history overlapped) = 1 /\
  length (promptHistory overlapped) = 1 /\
  conversationState (handleUserInput "restore" overlapped) = review.
Proof. repeat split; reflexivity. Qed.

(** ** C1: history and ledger in step *)

(** C1, counterexample. Before the first upload and after "done" both
    sequences are empty, so the ledger's length, 0, is not the history's
    length minus one, which is -1. *)
Lemma lock_step_fails_when_both_empty :
  history finished = [] /\ promptHistory finished = [] /\
  ~ lock_step finished /\ ~ lock_step mounted.
Proof.
  repeat split; try reflexivity; unfold lock_step; vm_compute; discriminate.
Qed.

(** C1, amended. In a session in which every request is answered before
    the next action (uploads, instructions succeeding or failing, song
    mixes succeeding or failing, restores, input in review, in any order),
    after every action either [history] and [promptHistory] are both
    empty, or the ledger holds exactly one entry less than the history. *)
Theorem lock_step_or_both_empty :
  forall acts : list (Event * Response),
    let w := perform_all acts mounted in
    (history w = [] /\ promptHistory w = []) \/ lock_step w.
Proof.
  intros acts w. subst w.
  destruct mounted_orderly as [S O].
  destruct (perform_all_orderly acts mounted S O) as [_ [[[H P] | H] _]].
  - left. split; apply length_zero_nil; assumption.
  - right. unfold lock_step. lia.
Qed.

(** ** C2: input received in review *)



(** ** C3: submissions while a request is pending *)

(** C3, counterexample. With an edit request pending and [uploading]
    set, the Add button of the song sheet is enabled and sends a second
    request, and so does a further instruction. *)
Lemma second_request_dispatched_while_pending :
  uploading editing = true /\
  length (inflight editing) = 1 /\
  addingId editing = None /\
  length (inflight (step (add_click sahiba) editing)) = 2 /\
  length (inflight (step (speech_result "add caption") editing)) = 2 /\
  length (inflight (run [input_change "add caption"; text_submit] editing)) = 2.
Proof. repeat split; reflexivity. Qed.

(** C3, amended. The flag does not gate anything: in every state in which
    [uploading] is already set and a current version exists, an instruction
    received in [get_prompt], spoken or typed, sends one more edit request,
    and a click on Add sends one more mix request unless the song sheet's
    own [addingId] is set, the one case in which the click is ignored.
    Each dispatch leaves the flag set. *)
Theorem dispatch_does_not_consult_pending_flag :
  forall (w : World) (prompt : string) (song : Song) (current : HistoryEntry),
    uploading w = true ->
    Js.last_of (history w) = Some current ->
    (conversationState w = get_prompt ->
     inflight (handleUserInput prompt w)
     = (inflight w ++ [edit_in_flight current (promptHistory w) prompt])%list /\
     uploading (handleUserInput prompt w) = true) /\
    (conversationState w = get_prompt -> Js.truthy (Js.trim (inputText w)) = true ->
     inflight (handleTextSubmit w)
     = (inflight w
          ++ [edit_in_flight current (promptHistory w) (Js.trim (inputText w))])%list) /\
    (addingId w = None ->
     inflight (handleAddClick song w) = (inflight w ++ [mix_in_flight current song])%list /\
     uploading (handleAddClick song w) = true) /\
    (addingId w <> None -> handleAddClick song w = w).
Proof.
  intros w prompt song current U L.
  assert (K : forall t,
             conversationState w = get_prompt ->
             inflight (handleUserInput t w)
             = (inflight w ++ [edit_in_flight current (promptHistory w) t])%list /\
             uploading (handleUserInput t w) = true).
  { intros t P. rewrite handleUserInput_get_prompt by exact P.
    rewrite (submitEdit_current _ _ current) by (autorewrite with frame; exact L).
    unfold launch. project. split; reflexivity. }
  split; [| split; [| split]].
  - intros P. exact (K prompt P).
  - intros P T. unfold handleTextSubmit. rewrite T.
    cbn [inflight setInputText]. exact (proj1 (K _ P)).
  - intros A. unfold handleAddClick, addSongToCurrentVideo. rewrite A.
    cbn [history setAddingId]. rewrite L. cbn. split; reflexivity.
  - intros A. unfold handleAddClick. destruct (addingId w); [reflexivity | congruence].
Qed.

Lemma dispatch_witness :
  uploading editing = true /\
  Js.last_of (history editing) = Some {| blob := clip; url := 0 |} /\
  conversationState editing = get_prompt /\
  addingId editing = None /\
  length (inflight (handleUserInput "add caption" editing)) = 2 /\
  length (inflight (handleAddClick sahiba editing)) = 2.
Proof.
  destruct (dispatch_does_not_consult_pending_flag editing "add caption" sahiba
              {| blob := clip; url := 0 |} eq_refl eq_refl) as (E & _ & M & _).
  destruct (E eq_refl) as [E1 _]. destruct (M eq_refl) as [M1 _].
  do 4 (split; [reflexivity |]).
  split; [rewrite E1 | rewrite M1]; reflexivity.
Defined.

(** ** C4: the pending flag after a resolution *)

(** C4. Whatever the response to an edit or mix request is (a readable
    success, a non-success status with any body, an unreadable body, a
    rejected fetch), the [uploading] flag is [false] once the suspended
    handler has resumed; this holds for the two handlers, for any
    continuation, and for the whole transition taken when the response to
    any pending request arrives. *)
Theorem pending_flag_cleared_on_resolution :
  forall (w : World) (r : Response) (prompt : string) (song : Song),
    uploading (submitEdit_resume prompt r w) = false /\
    uploading (addSongToCurrentVideo_resume song r w) = false /\
    (forall k, uploading (resume k r w) = false) /\
    (forall before f after,
        uploading (step (response_arrives (length before) r)
                        (w |> with_inflight (before ++ f :: after)%list)) = false).
Proof.
  intros w r prompt song.
  assert (K : forall k w0, uploading (resume k r w0) = false)
    by (intros [p | s] w0; reflexivity).
  repeat split; try reflexivity.
  - intros k. apply K.
  - intros before f after.
    destruct (step_frame (response_arrives (length before) r)
                (w |> with_inflight (before ++ f :: after)%list))
      as (_ & _ & _ & U & _).
    rewrite U. cbn [handle inflight with_inflight].
    rewrite nth_error_app2, Nat.sub_diag by lia. cbn [nth_error].
    apply K.
Qed.

(** ** C5: failed and successful requests *)





(** ** C6: restore *)

(** C6. With more than one version, restoring removes exactly the last
    entry of [history], whose URL is no longer registered afterwards,
    removes exactly the last entry of [promptHistory] (the ledger has one
    to remove in every state a run can reach), announces the confirmation
    and moves to [get_prompt].  With one version or none it returns the
    state it was given: nothing changes and no error is set. *)
Theorem restore_pops_one_version_and_one_prompt :
  forall w : World,
    (1 < length (history w) ->
     let w' := restorePrevious w in
     (exists removed,
         history w = (history w' ++ [removed])%list /\
         ~ In (url removed) (objectUrls w')) /\
     promptHistory w' = removelast (promptHistory w) /\
     (ledger_covers w ->
      exists p, promptHistory w = (promptHistory w' ++ [p])%list) /\
     announced restore_confirmation w w' /\
     conversationState w' = get_prompt /\
     error w' = error w) /\
    (length (history w) <= 1 -> restorePrevious w = w) /\
    (forall es : list Event, ledger_covers (run es mounted)).
Proof.
  intros w. split; [| split].
  - intros H w'. subst w'.
    destruct (restorePrevious_some w H) as (removed & L & ->).
    pose proof (addAIMessage_announced restore_confirmation
                  (w |> revokeObjectURL (url removed)
                     |> setHistoryWith Js.drop_last
                     |> setPromptHistoryWith Js.drop_last) eq_refl) as [S1 S2].
    split; [| split; [| split; [| split; [| split]]]].
    + exists removed. project. split.
      * apply last_of_Some. exact L.
      * apply remove_In.
    + project. reflexivity.
    + intros C. unfold ledger_covers in C. project.
      assert (N : promptHistory w <> []).
      { intros E. rewrite E in C. cbn in C. lia. }
      destruct (exists_last N) as (ys & y & E). exists y.
      unfold Js.drop_last. rewrite E, removelast_last. reflexivity.
    + split; [exact S1 | exact S2].
    + project. reflexivity.
    + project. reflexivity.
  - intros H. unfold restorePrevious.
    destruct (1 <? length (history w))%nat eqn:E; [| reflexivity].
    apply Nat.ltb_lt in E. lia.
  - intros es. apply run_ledger_covers. unfold ledger_covers. vm_compute. lia.
Qed.

Lemma restore_witness :
  1 < length (history reviewing) /\
  (let w' := restorePrevious reviewing in
   (exists removed,
       history reviewing = (history w' ++ [removed])%list /\
       ~ In (url removed) (objectUrls w')) /\
   promptHistory w' = removelast (promptHistory reviewing) /\
   (ledger_covers reviewing ->
    exists p, promptHistory reviewing = (promptHistory w' ++ [p])%list) /\
   announced restore_confirmation reviewing w' /\
   conversationState w' = get_prompt /\
   error w' = error reviewing) /\
  length (history uploaded) <= 1 /\
  restorePrevious uploaded = uploaded.
Proof.
  assert (H2 : 1 < length (history reviewing)) by (vm_compute; lia).
  assert (H1 : length (history uploaded) <= 1) by (vm_compute; lia).
  split; [exact H2 |].
  split; [exact (proj1 (restore_pops_one_version_and_one_prompt reviewing) H2) |].
  split; [exact H1 |].
  exact (proj1 (proj2 (restore_pops_one_version_and_one_prompt uploaded)) H1).
Defined.

(** ** C7: the instruction sent with an edit request *)




(** ** C8: object URLs of removed entries *)

(** C8. After an upload, a successful edit and "done", [history] is empty
    while the URLs created for its two entries are still registered; a
    second upload replaces the first entry without revoking its URL.
    Restoring, in contrast, revokes the URL of the entry it removes. *)
Theorem done_and_upload_leave_urls_registered :
  history reviewing
  = [{| blob := clip; url := 0 |}; {| blob := edited; url := 1 |}] /\
  history (perform (speech_result "done", server_error) reviewing) = [] /\
  objectUrls (perform (speech_result "done", server_error) reviewing) = [1; 0] /\
  history (perform (file_change (Some mixed), server_error) uploaded)
  = [{| blob := mixed; url := 1 |}] /\
  objectUrls (perform (file_change (Some mixed), server_error) uploaded) = [1; 0] /\
  history (perform (restore_click, server_error) reviewing)
  = [{| blob := clip; url := 0 |}] /\
  objectUrls (perform (restore_click, server_error) reviewing) = [0].
Proof. repeat split; reflexivity. Qed.

(** ** C9: speech failures *)

(** C9, counterexample. A failed speech request stores a message in the
    [error] cell, which the sheets display. *)
Lemma speech_request_failure_is_surfaced :
  error mounted = None /\
  error (step (speech_settles (tts_rejects None "Network Error")) mounted)
  = Some "TTS request failed: Network Error".
Proof. split; reflexivity. Qed.

(** C9, amended. No outcome of a speech request changes the phase, the
    history, the ledger, the transcript, the pending flag or the pending
    requests.  A playback failure (payload that does not decode, playback
    refused) adds one console line and leaves [error] as it was; a failed
    speech request adds one console line and sets [error] to
    "TTS request failed: " followed by the server's or the client's
    message. *)
Theorem speech_outcomes_leave_session_alone :
  forall (w : World) (o : TtsOutcome),
    let w' := addAIMessage_resume o w in
    (conversationState w' = conversationState w /\
     conversationState (step (speech_settles o) w) = conversationState w /\
     history w' = history w /\ promptHistory w' = promptHistory w /\
     messages w' = messages w /\ uploading w' = uploading w /\
     inflight w' = inflight w) /\
    match o with
    | tts_rejects server_error message =>
        error w' = Some ("TTS request failed: " ++ Js.or_else server_error message) /\
        console w' = (console w ++ [console_error "TTS request failed"])%list
    | tts_data None _ => w' = w
    | tts_data (Some audio) p =>
        error w' = error w /\
        (Js.truthy audio = true -> decodes p = false ->
         console w' = (console w ++ [console_error "addAIMessage: TTS/playback failed"])%list) /\
        (Js.truthy audio = true -> decodes p = true -> has_element p = true ->
         plays p = false ->
         console w' = (console w ++ [console_warn "Playback blocked or failed:"])%list)
    end.
Proof.
  intros w o w'. subst w'.
  assert (Fr : conversationState (addAIMessage_resume o w) = conversationState w /\
               history (addAIMessage_resume o w) = history w /\
               promptHistory (addAIMessage_resume o w) = promptHistory w /\
               messages (addAIMessage_resume o w) = messages w /\
               uploading (addAIMessage_resume o w) = uploading w /\
               inflight (addAIMessage_resume o w) = inflight w).
  { destruct o as [se m | [audio |] [d h pl]]; cbn; try (repeat split; reflexivity).
    unfold playBase64Audio. destruct (Js.truthy audio); [| repeat split; reflexivity].
    cbn. destruct d, h, pl; cbn; repeat split; reflexivity. }
  destruct Fr as (F1 & F2 & F3 & F4 & F5 & F6).
  split.
  - repeat split; try assumption.
    rewrite step_eq_handle; [exact F1 | left; exact F1].
  - destruct o as [se m | [audio |] [d h pl]]; cbn.
    + split; reflexivity.
    + unfold playBase64Audio. destruct (Js.truthy audio); cbn.
      * destruct d, h, pl; cbn; repeat split; intros; try reflexivity; discriminate.
      * repeat split; intros; discriminate.
    + reflexivity.
Qed.

Lemma speech_outcomes_witness :
  let o := tts_data (Some "bm90IGF1ZGlv")
             {| decodes := true; has_element := true; plays := false |} in
  error (addAIMessage_resume o reviewing) = error reviewing /\
  console (addAIMessage_resume o reviewing)
  = (console reviewing ++ [console_warn "Playback blocked or failed:"])%list.
Proof.
  intros o.
  destruct (speech_outcomes_leave_session_alone reviewing o) as [_ (E & _ & H)].
  split; [exact E |].
  exact (H eq_refl eq_refl eq_refl eq_refl).
Defined.

(** ** C10: the ledger entry of a song *)

Lemma append_cancel_l (s a b : string) : (s ++ a = s ++ b)%string -> a = b.
Proof.
  induction s as [| c s IH]; cbn; intros H; [exact H |].
  injection H as H. auto.
Qed.

(** C10. After a successful mix of a song with title [t] and artist [a],
    the entry appended to [promptHistory] is "Added song: " + t + " " +
    the three characters U+00E2 U+20AC U+201D + " " + a, which is not the
    string "Added song: " + t + " " + U+2014 (em dash) + " " + a. *)
Theorem song_ledger_entry_is_not_the_em_dash_string :
  forall (w : World) (b : Blob) (i t a u : string),
    let song := {| id := i; title := Some t; artist := Some a; public_url := u |} in
    let entry := "Added song: " ++ t ++ " " ++ song_separator ++ " " ++ a in
    promptHistory (addSongToCurrentVideo_resume song (ok_blob b) w)
    = (promptHistory w ++ [entry])%list /\
    entry <> claimed_ledger_entry t a /\
    promptHistory (perform (add_click sahiba, ok_blob mixed) uploaded)
    = ["Added song: Sahiba " ++ song_separator ++ " Aditya Rikhari"].
Proof.
  intros w b i t a u song entry. split; [| split].
  - unfold addSongToCurrentVideo_resume. project. reflexivity.
  - subst entry. unfold claimed_ledger_entry. intros H.
    apply (append_cancel_l "Added song: ") in H.
    apply append_cancel_l in H. discriminate H.
  - reflexivity.
Qed.
